(** * Blink & Bloom development server (server.py)

    A shallow embedding of [server.py]: the request handler that adds the
    two cross-origin isolation headers, and [main], which changes into the
    script's directory, binds the listener on port 8000, prints the banner,
    optionally opens a browser and serves until it is interrupted.

    The interpreter and the operating system are modelled by a [world]: the
    command line, the environment, and the outcome of every library call
    that [main] performs.  [main] itself is written in a small monad that
    threads the process state (working directory and a chronological log of
    the effects performed) and propagates Python exceptions. *)

From Stdlib Require Import String Ascii List ZArith Bool Lia DecimalString.
Import ListNotations.
Open Scope string_scope.
Open Scope Z_scope.

(** ** Python values used by the script *)

(** [f"{n}"] and [str(n)] for an integer. *)
Definition str_of_Z (n : Z) : string := NilZero.string_of_int (Z.to_int n).

(** The exceptions that can reach [main]'s handlers.  [OSError] carries the
    [errno] and [strerror] attributes the operating system reported. *)
Inductive exn : Type :=
| KeyboardInterrupt
| OSError (errno : Z) (strerror : string)
| OtherException (name message : string).

(** [str(e)]: an [OSError] built from an errno and a message prints as
    [[Errno n] message]. *)
Definition str_of_exn (e : exn) : string :=
  match e with
  | KeyboardInterrupt => ""
  | OSError n msg => "[Errno " ++ str_of_Z n ++ "] " ++ msg
  | OtherException _ msg => msg
  end.

(** Result of a library call: it returns, or it raises. *)
Inductive outcome (A : Type) : Type :=
| Returns (a : A)
| Raises (e : exn).
Arguments Returns {A} a.
Arguments Raises {A} e.

(** ** Effects *)

(** What the process does to the outside, in the order it does it. *)
Inductive event : Type :=
| EChdir (dir : string)
| EBind (host : string) (port : Z)
| EPrint (text : string)
| EBrowserOpen (url : string)
| EServeForever
| EServerClose.

(** Process state: the current working directory and the effect log. *)
Record proc : Type := mkProc {
  cwd : string;
  log : list event
}.

(** How a computation ends: with a value, with an exception in flight, or
    not at all ([serve_forever] keeps serving). *)
Inductive res (A : Type) : Type :=
| Val (a : A)
| Exc (e : exn)
| Serving.
Arguments Val {A} a.
Arguments Exc {A} e.
Arguments Serving {A}.

Definition M (A : Type) : Type := proc -> res A * proc.

Definition ret {A} (a : A) : M A := fun s => (Val a, s).

Definition bind {A B} (m : M A) (k : A -> M B) : M B :=
  fun s =>
    match m s with
    | (Val a, s') => k a s'
    | (Exc e, s') => (Exc e, s')
    | (Serving, s') => (Serving, s')
    end.

Definition raise {A} (e : exn) : M A := fun s => (Exc e, s).

Definition emit (ev : event) : M unit :=
  fun s => (Val tt, mkProc (cwd s) (log s ++ [ev])).

(** A library call whose result the world decides. *)
Definition call {A} (o : outcome A) : M A :=
  match o with
  | Returns a => ret a
  | Raises e => raise e
  end.

(** [try: body except ...: handler]; the handler decides which exceptions
    it takes and re-raises the others. *)
Definition try_except {A} (body : M A) (handler : exn -> M A) : M A :=
  fun s =>
    match body s with
    | (Exc e, s') => handler e s'
    | r => r
    end.

(** [try: body finally: cleanup], as the [with] statement runs [__exit__]. *)
Definition finally {A} (body : M A) (cleanup : M unit) : M A :=
  fun s =>
    match body s with
    | (Val a, s') =>
        match cleanup s' with
        | (Val _, s'') => (Val a, s'')
        | (Exc e, s'') => (Exc e, s'')
        | (Serving, s'') => (Serving, s'')
        end
    | (Exc e, s') =>
        match cleanup s' with
        | (Val _, s'') => (Exc e, s'')
        | (Exc e', s'') => (Exc e', s'')
        | (Serving, s'') => (Serving, s'')
        end
    | (Serving, s') => (Serving, s')
    end.

Declare Scope proc_scope.
Delimit Scope proc_scope with proc.
Notation "x <- m ;; k" := (bind m (fun x => k))
  (at level 61, m at next level, right associativity) : proc_scope.
Notation "m ;; k" := (bind m (fun _ => k))
  (at level 61, right associativity) : proc_scope.
Open Scope proc_scope.

(** ** The world *)

(** The operating systems the script is run on, and the number each gives
    to "address already in use" ([errno.EADDRINUSE]). *)
Inductive platform : Type := Linux | Darwin | Windows.

Definition EADDRINUSE (p : platform) : Z :=
  match p with
  | Linux => 98
  | Darwin => 48
  | Windows => 10048
  end.

(** Everything [main] reads from or asks of its surroundings. *)
Record world : Type := mkWorld {
  os : platform;
  argv : list string;                 (* sys.argv; argv[0] is the script *)
  environ : list (string * string);   (* os.environ *)
  script_file : string;               (* __file__ *)
  start_dir : string;                 (* working directory at launch *)
  chdir_result : outcome unit;        (* os.chdir *)
  bind_result : outcome unit;         (* socketserver.TCPServer(...) *)
  browser_result : outcome bool;      (* webbrowser.open *)
  serve_result : option exn           (* serve_forever: raises, or None = keeps serving *)
}.

(** ** Library calls *)

(** [print]: standard output is taken to accept every line. *)
Definition print (text : string) : M unit := emit (EPrint text).

(** [os.getcwd()]: the directory last changed into, taken to be its own
    physical path (no symbolic link on the way to it). *)
Definition getcwd : M string := fun s => (Val (cwd s), s).

Definition os_chdir (w : world) (dir : string) : M unit :=
  emit (EChdir dir) ;;
  call (chdir_result w) ;;
  fun s => (Val tt, mkProc dir (log s)).

Definition server_close : M unit := emit EServerClose.

(** [TCPServer.__init__]: [server_bind()] and [server_activate()], whose
    outcome is [bind_result]; when they raise, the constructor closes its
    socket and re-raises. *)
Definition TCPServer (w : world) (host : string) (port : Z) : M unit :=
  emit (EBind host port) ;;
  try_except (call (bind_result w)) (fun e => server_close ;; raise e).

(** [with TCPServer(addr, handler) as httpd: body]: the constructor binds
    and listens; leaving the block, normally or not, closes the socket. *)
Definition with_TCPServer {A} (w : world) (host : string) (port : Z)
    (body : M A) : M A :=
  TCPServer w host port ;;
  finally body server_close.

Definition webbrowser_open (w : world) (url : string) : M bool :=
  emit (EBrowserOpen url) ;;
  call (browser_result w).

Definition serve_forever (w : world) : M unit :=
  emit EServeForever ;;
  match serve_result w with
  | Some e => raise e
  | None => fun s => (Serving, s)
  end.

(** ** [main] *)

Definition PORT : Z := 8000.

(** ** [os.path] on POSIX, as [posixpath] defines it *)

Module posixpath.

Definition sep : string := "/".

(** [s.startswith(p)] and [s.endswith(p)]. *)
Definition startswith (p s : string) : bool := String.prefix p s.

Fixpoint endswith_sep (s : string) : bool :=
  match s with
  | EmptyString => false
  | String c EmptyString => Ascii.eqb c "/"
  | String _ s' => endswith_sep s'
  end.

(** [s.split('/')]: never empty, an empty string gives one empty field. *)
Fixpoint split (s : string) : list string :=
  match s with
  | EmptyString => [EmptyString]
  | String c s' =>
      if Ascii.eqb c "/" then EmptyString :: split s'
      else match split s' with
           | x :: xs => String c x :: xs
           | [] => [String c EmptyString]
           end
  end.

(** [s.rfind('/')], counting from [i]: the last index, or -1. *)
Fixpoint rfind_from (s : string) (i : Z) : Z :=
  match s with
  | EmptyString => -1
  | String c s' =>
      let r := rfind_from s' (i + 1) in
      if 0 <=? r then r else if Ascii.eqb c "/" then i else -1
  end.

Definition rfind (s : string) : Z := rfind_from s 0.

(** [s.rstrip('/')]. *)
Fixpoint rstrip (s : string) : string :=
  match s with
  | EmptyString => EmptyString
  | String c s' =>
      match rstrip s' with
      | EmptyString => if Ascii.eqb c "/" then EmptyString else String c EmptyString
      | t => String c t
      end
  end.

(** ['/' * n]. *)
Fixpoint seps (n : nat) : string :=
  match n with
  | O => EmptyString
  | S n' => String "/" (seps n')
  end.

Definition isabs (s : string) : bool := startswith sep s.

(** [join(a, b)] with one component after the first. *)
Definition join (a b : string) : string :=
  if startswith sep b then b
  else if String.eqb a "" || endswith_sep a then a ++ b
  else a ++ sep ++ b.

(** One turn of the loop of [normpath] over the fields of the path. *)
Definition normpath_step (initial_slashes : Z) (new_comps : list string)
    (comp : string) : list string :=
  if String.eqb comp "" || String.eqb comp "." then new_comps
  else if negb (String.eqb comp "..")
          || ((initial_slashes =? 0) && (match new_comps with [] => true | _ => false end))
          || ((match new_comps with [] => false | _ => true end)
              && String.eqb (last new_comps "") "..")
       then new_comps ++ [comp]
       else match new_comps with
            | [] => new_comps
            | _ => removelast new_comps
            end.

Definition normpath (path : string) : string :=
  if String.eqb path "" then "."
  else
    let initial_slashes : Z :=
      if startswith sep path then
        if startswith "//" path && negb (startswith "///" path) then 2 else 1
      else 0 in
    let comps := split path in
    let new_comps := fold_left (normpath_step initial_slashes) comps [] in
    let path := String.concat sep new_comps in
    let path := if initial_slashes =? 0 then path
                else seps (Z.to_nat initial_slashes) ++ path in
    if String.eqb path "" then "." else path.

(** [abspath(path)], with [os.getcwd()] passed in. *)
Definition abspath (getcwd path : string) : string :=
  if isabs path then normpath path else normpath (join getcwd path).

Definition dirname (p : string) : string :=
  let i := rfind p + 1 in
  let head := substring 0 (Z.to_nat i) p in
  if negb (String.eqb head "") && negb (String.eqb head (seps (String.length head)))
  then rstrip head
  else head.

End posixpath.

(** ** [main], continued *)

Definition no_browser_flag : string := "--no-browser".

(** [len(sys.argv) > 1 and sys.argv[1] == '--no-browser'] *)
Definition no_browser (args : list string) : bool :=
  (1 <? Z.of_nat (length args)) && String.eqb (nth 1 args "") no_browser_flag.

Definition index_url : string :=
  "http://localhost:" ++ str_of_Z PORT ++ "/index.html".

Definition stopped_msg : string := String "010" "🛑 Server stopped".
Definition port_in_use_msg : string :=
  "❌ Port " ++ str_of_Z PORT ++ " is already in use".
Definition try_other_port_msg : string :=
  "Try a different port or stop the existing server".
Definition start_error_msg (e : exn) : string :=
  "❌ Error starting server: " ++ str_of_exn e.

(** The body of the [with] block. *)
Definition serve (w : world) : M unit :=
  print ("🌱 Blink & Bloom server starting at http://localhost:" ++ str_of_Z PORT) ;;
  d <- getcwd ;;
  print ("📁 Serving files from: " ++ d) ;;
  print (String "010" "Available pages:") ;;
  print ("  🎮 Main Game: http://localhost:" ++ str_of_Z PORT ++ "/index.html") ;;
  print ("  👁️  Gaze Test: http://localhost:" ++ str_of_Z PORT ++ "/gaze_test.html") ;;
  print (String "010" "⚠️  Note: Camera access requires HTTPS in production") ;;
  print "💡 For HTTPS, use: python -m http.server --bind 127.0.0.1 --protocol HTTPS" ;;
  print (String "010" "Press Ctrl+C to stop the server") ;;
  (if no_browser (argv w) then ret tt
   else (_ <- webbrowser_open w index_url ;; ret tt)) ;;
  serve_forever w.

(** The [except] clauses of [main], in order. *)
Definition handlers (e : exn) : M unit :=
  match e with
  | KeyboardInterrupt => print stopped_msg
  | OSError errno _ =>
      if errno =? 48 then
        print port_in_use_msg ;;
        print try_other_port_msg
      else print (start_error_msg e)
  | OtherException _ _ => raise e
  end.

Definition main (w : world) : M unit :=
  here <- getcwd ;;
  os_chdir w (posixpath.dirname (posixpath.abspath here (script_file w))) ;;
  try_except (with_TCPServer w "" PORT (serve w)) handlers.

(** Running the script: the process starts in the launch directory with
    nothing done yet. *)
Definition run (w : world) : res unit * proc :=
  main w (mkProc (start_dir w) []).

(** Exit status of the interpreter as a shell reports it: 0 when [main]
    returns; 1 after an uncaught exception; 130 after an uncaught
    [KeyboardInterrupt], on which the interpreter ends itself with SIGINT;
    none while serving.  ([OtherException] stands for exceptions that end
    the interpreter with status 1; [SystemExit], which carries its own
    status, is not among them.) *)
Definition exit_code (r : res unit) : option Z :=
  match r with
  | Val _ => Some 0
  | Exc KeyboardInterrupt => Some 130
  | Exc _ => Some 1
  | Serving => None
  end.

Definition traceback (r : res unit) : option exn :=
  match r with
  | Exc e => Some e
  | _ => None
  end.

(** ** The request handler *)

Definition CRLF : string := String "013" (String "010" EmptyString).

(** [c.lower()] on ASCII letters. *)
Definition lower_ascii (c : ascii) : ascii :=
  let n := nat_of_ascii c in
  if (65 <=? n)%nat && (n <=? 90)%nat then ascii_of_nat (n + 32) else c.

Fixpoint lower (s : string) : string :=
  match s with
  | EmptyString => EmptyString
  | String c s' => String (lower_ascii c) (lower s')
  end.

(** The part of a handler instance that building a response touches. *)
Record handler : Type := mkHandler {
  request_version : string;
  path : string;
  close_connection : bool;
  headers_buffer : list string;   (* _headers_buffer *)
  wfile : list string             (* what was written to the client, per write *)
}.

(** The methods the script inherits from [http.server]. *)
Module BaseHTTPRequestHandler.


(** An HTTP/0.9 request gets a response without status line and headers:
    the buffer is left alone. *)
Definition has_headers (h : handler) : bool :=
  negb (String.eqb (request_version h) "HTTP/0.9").

Definition buffer_append (h : handler) (line : string) : handler :=
  mkHandler (request_version h) (path h) (close_connection h)
            (headers_buffer h ++ [line]) (wfile h).

Definition set_close_connection (h : handler) (b : bool) : handler :=
  mkHandler (request_version h) (path h) b (headers_buffer h) (wfile h).


Definition header_line (keyword value : string) : string :=
  keyword ++ ": " ++ value ++ CRLF.

Definition send_header (h : handler) (keyword value : string) : handler :=
  let h := if has_headers h then buffer_append h (header_line keyword value)
           else h in
  if String.eqb (lower keyword) "connection" then
    if String.eqb (lower value) "close" then set_close_connection h true
    else if String.eqb (lower value) "keep-alive" then set_close_connection h false
    else h
  else h.

Definition flush_headers (h : handler) : handler :=
  mkHandler (request_version h) (path h) (close_connection h) []
            (wfile h ++ [String.concat "" (headers_buffer h)]).

Definition end_headers (h : handler) : handler :=
  if has_headers h then flush_headers (buffer_append h CRLF) else h.

End BaseHTTPRequestHandler.

(** The handler class [main] defines. *)
Module CORSHTTPRequestHandler.

Definition end_headers (h : handler) : handler :=
  let h := BaseHTTPRequestHandler.send_header h
             "Cross-Origin-Embedder-Policy" "require-corp" in
  let h := BaseHTTPRequestHandler.send_header h
             "Cross-Origin-Opener-Policy" "same-origin" in
  BaseHTTPRequestHandler.end_headers h.

End CORSHTTPRequestHandler.



Definition coep_line : string :=
  "Cross-Origin-Embedder-Policy: require-corp" ++ CRLF.
Definition coop_line : string :=
  "Cross-Origin-Opener-Policy: same-origin" ++ CRLF.


(** ** Observations on a run *)

Definition final (w : world) : proc := snd (run w).
Definition result (w : world) : res unit := fst (run w).

(** The URLs passed to [webbrowser.open], in order. *)
Fixpoint browser_calls (l : list event) : list string :=
  match l with
  | [] => []
  | EBrowserOpen url :: l' => url :: browser_calls l'
  | _ :: l' => browser_calls l'
  end.

(** The addresses the listener was asked to bind, in order. *)
Fixpoint bind_calls (l : list event) : list (string * Z) :=
  match l with
  | [] => []
  | EBind host port :: l' => (host, port) :: bind_calls l'
  | _ :: l' => bind_calls l'
  end.

(** The lines printed, in order. *)
Fixpoint printed (l : list event) : list string :=
  match l with
  | [] => []
  | EPrint text :: l' => text :: printed l'
  | _ :: l' => printed l'
  end.

(** The directory [main] changes into. *)
Definition script_dir (w : world) : string :=
  posixpath.dirname (posixpath.abspath (start_dir w) (script_file w)).

(** The startup banner for a serving directory, as the log shows it. *)
Definition banner (dir : string) : list event :=
  [ EPrint "🌱 Blink & Bloom server starting at http://localhost:8000";
    EPrint ("📁 Serving files from: " ++ dir);
    EPrint (String "010" "Available pages:");
    EPrint "  🎮 Main Game: http://localhost:8000/index.html";
    EPrint "  👁️  Gaze Test: http://localhost:8000/gaze_test.html";
    EPrint (String "010" "⚠️  Note: Camera access requires HTTPS in production");
    EPrint "💡 For HTTPS, use: python -m http.server --bind 127.0.0.1 --protocol HTTPS";
    EPrint (String "010" "Press Ctrl+C to stop the server") ].

(** The log when the [with] block reaches the end of startup: directory
    change, bind, banner and, unless suppressed, the browser call. *)
Definition startup_log (w : world) (dir : string) : list event :=
  [EChdir dir; EBind "" PORT] ++ banner dir
  ++ (if no_browser (argv w) then [] else [EBrowserOpen index_url]).

(** Whether the browser step lets the block go on: it is skipped, or the
    call returns. *)
Definition browser_step (w : world) : outcome unit :=
  if no_browser (argv w) then Returns tt
  else match browser_result w with
       | Returns _ => Returns tt
       | Raises e => Raises e
       end.

(** ** Where the script lives *)

Fixpoint has_sep (s : string) : bool :=
  match s with
  | EmptyString => false
  | String c s' => Ascii.eqb c "/" || has_sep s'
  end.

(** A file or directory name: not empty, no separator, neither [.] nor
    [..]. *)
Definition component (c : string) : bool :=
  negb (String.eqb c "") && negb (String.eqb c ".")
  && negb (String.eqb c "..") && negb (has_sep c).

(** The absolute path with the given names, and the relative one. *)
Definition abs_path (names : list string) : string :=
  "/" ++ String.concat "/" names.

Definition rel_path (names : list string) : string :=
  String.concat "/" names.

(** The script [name] is in the directory [dir], and [__file__] says so
    either with its absolute path or with a path relative to the directory
    the interpreter was launched in. *)
Inductive script_in (w : world) (dir : list string) (name : string) : Prop :=
| script_absolute :
    script_file w = abs_path (dir ++ [name]) ->
    script_in w dir name
| script_relative (base rel : list string) :
    dir = (base ++ rel)%list ->
    forallb component base = true ->
    start_dir w = abs_path base ->
    script_file w = rel_path (rel ++ [name]) ->
    script_in w dir name.

(** ** Sample worlds and handlers *)

(** Launched on Linux as [python /home/u/game/server.py] from [/tmp]; the
    operator presses Ctrl+C while the server runs. *)
Definition w_plain : world :=
  mkWorld Linux ["/home/u/game/server.py"] [("PORT", "9000")]
    "/home/u/game/server.py" "/tmp"
    (Returns tt) (Returns tt) (Returns true) (Some KeyboardInterrupt).

Definition with_argv (w : world) (args : list string) : world :=
  mkWorld (os w) args (environ w) (script_file w) (start_dir w)
    (chdir_result w) (bind_result w) (browser_result w) (serve_result w).

Definition with_cli (w : world) (args : list string)
    (env : list (string * string)) : world :=
  mkWorld (os w) args env (script_file w) (start_dir w)
    (chdir_result w) (bind_result w) (browser_result w) (serve_result w).

Definition with_bind (w : world) (p : platform) (o : outcome unit) : world :=
  mkWorld p (argv w) (environ w) (script_file w) (start_dir w)
    (chdir_result w) o (browser_result w) (serve_result w).

Definition with_browser (w : world) (o : outcome bool) : world :=
  mkWorld (os w) (argv w) (environ w) (script_file w) (start_dir w)
    (chdir_result w) (bind_result w) o (serve_result w).

Definition w_no_browser : world :=
  with_argv w_plain ["/home/u/game/server.py"; "--no-browser"].

(** The flag in second position, after another argument. *)
Definition w_flag_later : world :=
  with_argv w_plain ["/home/u/game/server.py"; "--verbose"; "--no-browser"].

(** A second instance on Linux: port 8000 is taken. *)
Definition w_linux_port_taken : world :=
  with_bind w_plain Linux (Raises (OSError 98 "Address already in use")).

(** The same on macOS. *)
Definition w_darwin_port_taken : world :=
  with_bind w_plain Darwin (Raises (OSError 48 "Address already in use")).

(** Binding refused for another reason. *)
Definition w_bind_denied : world :=
  with_bind w_plain Linux (Raises (OSError 13 "Permission denied")).

(** No browser can be started and the library says so by returning
    [False]. *)
Definition w_browser_false : world := with_browser w_plain (Returns false).

(** Starting the browser raises: the registered browser binary is gone. *)
Definition w_browser_raises : world :=
  with_browser w_plain
    (Raises (OSError 2 "No such file or directory: 'firefox'")).

(** Launched as [python server.py] from the project directory, with a
    relative [__file__]. *)
Definition w_relative : world :=
  mkWorld Linux ["server.py"] [] "server.py" "/home/u/game"
    (Returns tt) (Returns tt) (Returns true) None.



(** ** Further observations *)

(** The exception that ends the [try] block, if any: the first one raised
    by the constructor, the browser step or the serving loop. *)
Definition block_exception (w : world) : option exn :=
  match bind_result w with
  | Raises e => Some e
  | Returns _ =>
      match browser_step w with
      | Raises e => Some e
      | Returns _ => serve_result w
      end
  end.

(** How often the listener was closed. *)
Fixpoint server_closes (l : list event) : nat :=
  match l with
  | [] => O
  | EServerClose :: l' => S (server_closes l')
  | _ :: l' => server_closes l'
  end.

(** The banner as printed text. *)
Definition banner_lines (dir : string) : list string := printed (banner dir).




(** The script's directory is gone when the interpreter starts. *)
Definition w_chdir_fails : world :=
  mkWorld Linux ["/home/u/game/server.py"] [] "/home/u/game/server.py" "/tmp"
    (Raises (OSError 2 "No such file or directory: '/home/u/game'"))
    (Returns tt) (Returns true) None.

Definition with_serve (w : world) (o : option exn) : world :=
  mkWorld (os w) (argv w) (environ w) (script_file w) (start_dir w)
    (chdir_result w) (bind_result w) (browser_result w) o.

(** The serving loop fails with an [OSError] long after startup. *)
Definition w_serve_oserror : world :=
  with_serve w_plain (Some (OSError 24 "Too many open files")).

(** Ctrl+C arrives while the browser is being started. *)
Definition w_interrupt_in_browser : world :=
  with_browser w_plain (Raises KeyboardInterrupt).



(** What the handlers print, by exception. *)
Definition handler_lines (e : exn) : list string :=
  match e with
  | KeyboardInterrupt => [stopped_msg]
  | OSError n msg =>
      if n =? 48 then [port_in_use_msg; try_other_port_msg]
      else [start_error_msg e]
  | OtherException _ _ => []
  end.

(** A field of a relative path as typed on a command line: a name, or
    [.] for "this directory". *)
Definition dot_or_name (c : string) : bool :=
  component c || String.eqb c ".".

(** Launched as [python ./server.py] from the project directory. *)
Definition w_dot_slash : world :=
  mkWorld Linux ["./server.py"] [] "./server.py" "/home/u/game"
    (Returns tt) (Returns tt) (Returns true) None.

(** * Properties *)

(** ** Running [main] by cases *)

Lemma browser_calls_app (l1 l2 : list event) :
  browser_calls (l1 ++ l2) = (browser_calls l1 ++ browser_calls l2)%list.
Proof.
  induction l1 as [|e l1 IH]; simpl; [reflexivity|].
  destruct e; simpl; rewrite ?IH; reflexivity.
Qed.

(** [main] up to the [try] statement. *)
Lemma run_chdir_fails (w : world) {e : exn} :
  chdir_result w = Raises e ->
  run w = (Exc e, mkProc (start_dir w) [EChdir (script_dir w)]).
Proof.
  intros H. unfold run, main, os_chdir, bind, getcwd, emit, call, script_dir.
  simpl. rewrite H. reflexivity.
Qed.

Lemma run_chdir_ok (w : world) {u : unit} :
  chdir_result w = Returns u ->
  run w = try_except (with_TCPServer w "" PORT (serve w)) handlers
            (mkProc (script_dir w) [EChdir (script_dir w)]).
Proof.
  intros H. unfold run, main, os_chdir, bind, getcwd, emit, call, script_dir.
  simpl. rewrite H. reflexivity.
Qed.

(** [main] once the listener is bound: what ends the [with] block. *)
Lemma run_bind_fails (w : world) {u : unit} {e : exn} :
  chdir_result w = Returns u -> bind_result w = Raises e ->
  run w = handlers e (mkProc (script_dir w)
                        [EChdir (script_dir w); EBind "" PORT; EServerClose]).
Proof.
  intros Hc Hb. rewrite (run_chdir_ok w Hc).
  unfold try_except, with_TCPServer, TCPServer, server_close, bind, emit,
    call, raise.
  simpl. rewrite Hb. reflexivity.
Qed.

Lemma run_bound (w : world) {u u' : unit} :
  chdir_result w = Returns u -> bind_result w = Returns u' ->
  run w =
    match browser_step w with
    | Raises e =>
        handlers e (mkProc (script_dir w)
                      (startup_log w (script_dir w) ++ [EServerClose]))
    | Returns _ =>
        match serve_result w with
        | Some e =>
            handlers e (mkProc (script_dir w)
                          (startup_log w (script_dir w)
                           ++ [EServeForever; EServerClose]))
        | None =>
            (Serving, mkProc (script_dir w)
                        (startup_log w (script_dir w) ++ [EServeForever]))
        end
    end.
Proof.
  intros Hc Hb. rewrite (run_chdir_ok w Hc).
  generalize (script_dir w); intros dir.
  unfold browser_step, startup_log, try_except, with_TCPServer, TCPServer,
    finally, serve, webbrowser_open, serve_forever, server_close, print,
    getcwd, bind, emit, call, ret, raise.
  simpl. rewrite Hb.
  destruct (no_browser (argv w)); simpl.
  - destruct (serve_result w); reflexivity.
  - destruct (browser_result w); simpl; [|reflexivity].
    destruct (serve_result w); reflexivity.
Qed.

(** The handlers only print. *)
Lemma handlers_log (e : exn) (s : proc) :
  exists lines,
    log (snd (handlers e s)) = (log s ++ map EPrint lines)%list
    /\ cwd (snd (handlers e s)) = cwd s.
Proof.
  destruct e as [|n msg|name msg]; simpl.
  - exists [stopped_msg]. split; reflexivity.
  - destruct (n =? 48).
    + exists [port_in_use_msg; try_other_port_msg].
      unfold bind, print, emit; simpl. rewrite <- app_assoc. split; reflexivity.
    + exists [start_error_msg (OSError n msg)]. split; reflexivity.
  - exists []. simpl. rewrite app_nil_r. split; reflexivity.
Qed.

Lemma handlers_caught (e : exn) (s : proc) :
  fst (handlers e s) =
    match e with
    | OtherException _ _ => Exc e
    | _ => Val tt
    end.
Proof.
  destruct e as [|n msg|name msg]; simpl; try reflexivity.
  destruct (n =? 48); reflexivity.
Qed.

Lemma browser_calls_prints (lines : list string) :
  browser_calls (map EPrint lines) = [].
Proof. induction lines; simpl; auto. Qed.

Lemma bind_calls_app (l1 l2 : list event) :
  bind_calls (l1 ++ l2) = (bind_calls l1 ++ bind_calls l2)%list.
Proof.
  induction l1 as [|e l1 IH]; simpl; [reflexivity|].
  destruct e; simpl; rewrite ?IH; reflexivity.
Qed.

Lemma bind_calls_prints (lines : list string) :
  bind_calls (map EPrint lines) = [].
Proof. induction lines; simpl; auto. Qed.

Lemma printed_app (l1 l2 : list event) :
  printed (l1 ++ l2) = (printed l1 ++ printed l2)%list.
Proof.
  induction l1 as [|e l1 IH]; simpl; [reflexivity|].
  destruct e; simpl; rewrite ?IH; reflexivity.
Qed.

Lemma printed_prints (lines : list string) :
  printed (map EPrint lines) = lines.
Proof. induction lines; simpl; congruence. Qed.

Lemma browser_calls_startup (w : world) (dir : string) :
  browser_calls (startup_log w dir) =
    if no_browser (argv w) then [] else [index_url].
Proof.
  unfold startup_log. destruct (no_browser (argv w)); reflexivity.
Qed.

(** The log of a bound run, whatever ends it. *)
Lemma final_log_bound (w : world) {u u' : unit} :
  chdir_result w = Returns u -> bind_result w = Returns u' ->
  exists tail,
    log (final w) = (startup_log w (script_dir w) ++ tail)%list
    /\ browser_calls tail = [] /\ bind_calls tail = [].
Proof.
  intros Hc Hb. unfold final. rewrite (run_bound w Hc Hb).
  destruct (browser_step w) as [[]|e].
  - destruct (serve_result w) as [e|].
    + destruct (handlers_log e (mkProc (script_dir w)
                 (startup_log w (script_dir w) ++ [EServeForever; EServerClose])))
        as (lines & Hl & _).
      rewrite Hl. simpl. rewrite <- app_assoc.
      eexists. split; [reflexivity|].
      simpl. rewrite browser_calls_prints, bind_calls_prints. split; reflexivity.
    + simpl. eexists. split; [reflexivity|]. split; reflexivity.
  - destruct (handlers_log e (mkProc (script_dir w)
               (startup_log w (script_dir w) ++ [EServerClose])))
      as (lines & Hl & _).
    rewrite Hl. simpl. rewrite <- app_assoc.
    eexists. split; [reflexivity|].
    simpl. rewrite browser_calls_prints, bind_calls_prints. split; reflexivity.
Qed.

Lemma no_browser_iff (args : list string) :
  no_browser args = true <-> nth_error args 1 = Some no_browser_flag.
Proof.
  unfold no_browser.
  destruct args as [|prog [|a rest]]; simpl; try (split; discriminate).
  rewrite andb_true_iff, String.eqb_eq. split.
  - intros [_ ->]. reflexivity.
  - intros [= ->]. split; [|reflexivity]. apply Z.ltb_lt. lia.
Qed.

Lemma no_browser_false_iff (args : list string) :
  no_browser args = false <-> nth_error args 1 <> Some no_browser_flag.
Proof.
  rewrite <- no_browser_iff. destruct (no_browser args); split; congruence.
Qed.

(** Browser calls of a whole run, by what startup meets. *)
Lemma browser_calls_final (w : world) :
  browser_calls (log (final w)) =
    match chdir_result w, bind_result w with
    | Returns _, Returns _ => if no_browser (argv w) then [] else [index_url]
    | _, _ => []
    end.
Proof.
  destruct (chdir_result w) as [u|e] eqn:Hc.
  - destruct (bind_result w) as [u'|e] eqn:Hb.
    + destruct (final_log_bound w Hc Hb) as (tail & Hl & Ht & _).
      rewrite Hl, browser_calls_app, Ht, app_nil_r.
      apply browser_calls_startup.
    + unfold final. rewrite (run_bind_fails w Hc Hb).
      destruct (handlers_log e (mkProc (script_dir w)
                 [EChdir (script_dir w); EBind "" PORT; EServerClose]))
        as (lines & Hl & _).
      rewrite Hl, browser_calls_app, browser_calls_prints. reflexivity.
  - unfold final. rewrite (run_chdir_fails w Hc). reflexivity.
Qed.

Lemma bind_calls_final (w : world) :
  bind_calls (log (final w)) =
    match chdir_result w with
    | Returns _ => [("", PORT)]
    | Raises _ => []
    end.
Proof.
  destruct (chdir_result w) as [u|e] eqn:Hc.
  - destruct (bind_result w) as [u'|e] eqn:Hb.
    + destruct (final_log_bound w Hc Hb) as (tail & Hl & _ & Ht).
      rewrite Hl, bind_calls_app, Ht, app_nil_r.
      unfold startup_log. destruct (no_browser (argv w)); reflexivity.
    + unfold final. rewrite (run_bind_fails w Hc Hb).
      destruct (handlers_log e (mkProc (script_dir w)
                 [EChdir (script_dir w); EBind "" PORT; EServerClose]))
        as (lines & Hl & _).
      rewrite Hl, bind_calls_app, bind_calls_prints. reflexivity.
  - unfold final. rewrite (run_chdir_fails w Hc). reflexivity.
Qed.

Lemma in_bind_calls (l : list event) (host : string) (port : Z) :
  In (EBind host port) l -> In (host, port) (bind_calls l).
Proof.
  induction l as [|e l IH]; simpl; [tauto|].
  intros [->|H]; [left; reflexivity|].
  destruct e; simpl; auto.
Qed.

Lemma in_browser_calls (l : list event) (url : string) :
  In (EBrowserOpen url) l <-> In url (browser_calls l).
Proof.
  induction l as [|e l IH]; simpl; [tauto|].
  destruct e; simpl; rewrite <- IH; intuition (try discriminate; congruence).
Qed.

(** In a log with a single browser call, the call splits the log in one
    way only. *)
Lemma browser_split_unique (a b pre post : list event) (u u' : string) :
  browser_calls a = [] -> browser_calls b = [] ->
  (a ++ EBrowserOpen u :: b = pre ++ EBrowserOpen u' :: post)%list ->
  pre = a.
Proof.
  revert pre. induction a as [|x a IH]; intros pre Ha Hb H.
  - destruct pre as [|e pre]; [reflexivity|].
    simpl in H. injection H as _ H. rewrite H, browser_calls_app in Hb.
    simpl in Hb. destruct (browser_calls pre); discriminate.
  - destruct pre as [|e pre]; simpl in H.
    + injection H as -> _. discriminate.
    + injection H as -> H. f_equal. apply IH; auto.
      destruct e; simpl in Ha; auto; discriminate.
Qed.

(** ** Command line and browser *)

(** C2: invoked as [<program> --no-browser], the run performs no
    browser-open call at all; invoked without the flag, a startup that gets
    its listener performs exactly one browser-open call, for
    [http://localhost:8000/index.html]. *)
Theorem browser_opened_once_unless_suppressed (w : world) :
  (nth_error (argv w) 1 = Some "--no-browser" ->
   browser_calls (log (final w)) = [])
  /\ (chdir_result w = Returns tt -> bind_result w = Returns tt ->
      ~ In "--no-browser" (tl (argv w)) ->
      browser_calls (log (final w)) = ["http://localhost:8000/index.html"]).
Proof.
  rewrite browser_calls_final. split.
  - intros H. apply no_browser_iff in H. rewrite H.
    destruct (chdir_result w), (bind_result w); reflexivity.
  - intros -> -> H.
    assert (Hn : no_browser (argv w) = false).
    { apply no_browser_false_iff. intros E. apply H.
      destruct (argv w) as [|prog [|a rest]]; simpl in *; try discriminate.
      injection E as ->. left. reflexivity. }
    rewrite Hn. reflexivity.
Qed.

Lemma browser_opened_once_unless_suppressed_witness :
  browser_calls (log (final w_no_browser)) = []
  /\ browser_calls (log (final w_plain)) = ["http://localhost:8000/index.html"].
Proof.
  split.
  - apply (proj1 (browser_opened_once_unless_suppressed w_no_browser)).
    reflexivity.
  - apply (proj2 (browser_opened_once_unless_suppressed w_plain));
      [reflexivity | reflexivity |].
    simpl. intros [].
  Defined.

(** C10: the flag counts only as [sys.argv[1]].  Once the listener is
    bound, the browser call is suppressed exactly when the first argument
    is the string [--no-browser]; with any other first argument it is made,
    whatever follows, also when the flag itself follows. *)
Theorem flag_only_in_first_position (w : world) :
  chdir_result w = Returns tt -> bind_result w = Returns tt ->
  (browser_calls (log (final w)) = []
   <-> nth_error (argv w) 1 = Some "--no-browser")
  /\ (forall prog first rest,
        argv w = prog :: first :: rest -> first <> "--no-browser" ->
        browser_calls (log (final w)) = [index_url]
        /\ In (EBrowserOpen index_url) (log (final w))).
Proof.
  intros Hc Hb. split.
  - rewrite browser_calls_final, Hc, Hb, <- no_browser_iff.
    destruct (no_browser (argv w)); split; congruence.
  - intros prog first rest Ha Hf.
    assert (E : browser_calls (log (final w)) = [index_url]).
    { rewrite browser_calls_final, Hc, Hb.
      assert (Hn : no_browser (argv w) = false).
      { apply no_browser_false_iff. rewrite Ha. simpl.
        intros [= E]. apply Hf, E. }
      rewrite Hn. reflexivity. }
    split; [exact E|]. apply in_browser_calls. rewrite E. left. reflexivity.
Qed.

Lemma flag_only_in_first_position_witness :
  In "--no-browser" (tl (argv w_flag_later))
  /\ browser_calls (log (final w_flag_later)) = [index_url].
Proof.
  split.
  - simpl. right. left. reflexivity.
  - apply (proj2 (flag_only_in_first_position w_flag_later eq_refl eq_refl)
             "/home/u/game/server.py" "--verbose" ["--no-browser"]).
    + reflexivity.
    + discriminate.
  Defined.

(** C8: when binding the listener fails, no browser-open call is made; and
    whenever a browser-open call appears in the log, the listener was bound
    and everything before the call is the directory change, the bind and
    the whole banner. *)
Theorem no_browser_call_without_listener (w : world) :
  (forall e, bind_result w = Raises e -> browser_calls (log (final w)) = [])
  /\ (forall pre url post,
        log (final w) = (pre ++ EBrowserOpen url :: post)%list ->
        bind_result w = Returns tt
        /\ pre = ([EChdir (script_dir w); EBind "" 8000]
                  ++ banner (script_dir w))%list).
Proof.
  split.
  - intros e Hb. rewrite browser_calls_final, Hb.
    destruct (chdir_result w); reflexivity.
  - intros pre url post H.
    assert (Hne : browser_calls (log (final w)) <> []).
    { rewrite H, browser_calls_app. simpl.
      destruct (browser_calls pre); discriminate. }
    rewrite browser_calls_final in Hne.
    destruct (chdir_result w) as [u|] eqn:Hc; [|congruence].
    destruct (bind_result w) as [[]|] eqn:Hb; [|congruence].
    split; [reflexivity|].
    destruct (final_log_bound w Hc Hb) as (tail & Hl & Ht & _).
    rewrite Hl in H. unfold startup_log in H.
    destruct (no_browser (argv w)); [congruence|].
    apply (browser_split_unique
             ([EChdir (script_dir w); EBind "" PORT] ++ banner (script_dir w))
             tail pre post index_url url); [reflexivity | exact Ht |].
    rewrite <- H, <- !app_assoc. reflexivity.
Qed.

Lemma no_browser_call_without_listener_witness :
  browser_calls (log (final w_linux_port_taken)) = []
  /\ bind_result w_plain = Returns tt.
Proof.
  split.
  - apply (proj1 (no_browser_call_without_listener w_linux_port_taken)
             (OSError 98 "Address already in use")).
    reflexivity.
  - apply (proj2 (no_browser_call_without_listener w_plain)
             ([EChdir "/home/u/game"; EBind "" 8000] ++ banner "/home/u/game")%list
             index_url
             [EServeForever; EServerClose; EPrint stopped_msg]).
    reflexivity.
  Defined.

(** ** The listener *)

(** C6: the port is 8000 in every invocation.  Every bind in the log is to
    [("", 8000)]; a run that gets past the directory change binds exactly
    once; and replacing the command line and the environment by any others
    leaves the bind calls as they were. *)
Theorem port_is_always_8000 (w : world) :
  (forall host port,
     In (EBind host port) (log (final w)) -> host = "" /\ port = 8000)
  /\ bind_calls (log (final w)) =
       match chdir_result w with
       | Returns _ => [("", 8000)]
       | Raises _ => []
       end
  /\ (forall args env,
        bind_calls (log (final (with_cli w args env)))
        = bind_calls (log (final w))).
Proof.
  split; [|split].
  - intros host port H. apply in_bind_calls in H.
    rewrite bind_calls_final in H.
    destruct (chdir_result w); simpl in H; [|tauto].
    destruct H as [[= <- <-]|[]]. split; reflexivity.
  - apply bind_calls_final.
  - intros args env. rewrite !bind_calls_final. reflexivity.
Qed.

Lemma port_is_always_8000_witness :
  ("" = "" /\ 8000 = 8000)
  /\ bind_calls (log (final (with_cli w_plain ["server.py"; "--port"; "9000"]
                               [("PORT", "9000")])))
     = [("", 8000)].
Proof.
  split.
  - apply (proj1 (port_is_always_8000
                    (with_cli w_plain ["server.py"; "--port"; "9000"]
                       [("PORT", "9000")]))
             "" 8000).
    simpl. right. left. reflexivity.
  - exact (proj1 (proj2 (port_is_always_8000
                    (with_cli w_plain ["server.py"; "--port"; "9000"]
                       [("PORT", "9000")])))).
  Defined.

(** C9: when the listener cannot be bound ([OSError] from the
    constructor), [main] prints its diagnostic and returns: the exit status
    is 0 and no traceback is shown. *)
Theorem bind_failure_exits_zero (w : world) (errno : Z) (msg : string) :
  chdir_result w = Returns tt ->
  bind_result w = Raises (OSError errno msg) ->
  result w = Val tt
  /\ exit_code (result w) = Some 0
  /\ traceback (result w) = None
  /\ printed (log (final w)) <> [].
Proof.
  intros Hc Hb. unfold result, final. rewrite (run_bind_fails w Hc Hb).
  simpl. destruct (errno =? 48); simpl; repeat split; discriminate.
Qed.

Lemma bind_failure_exits_zero_witness :
  exit_code (result w_linux_port_taken) = Some 0.
Proof.
  apply (bind_failure_exits_zero w_linux_port_taken
           98 "Address already in use"); reflexivity.
  Defined.

(** What [main] prints when the constructor raises [OSError]. *)
Lemma bind_error_report (w : world) {u : unit} {errno : Z} {msg : string} :
  chdir_result w = Returns u ->
  bind_result w = Raises (OSError errno msg) ->
  printed (log (final w)) =
    if errno =? 48 then [port_in_use_msg; try_other_port_msg]
    else [start_error_msg (OSError errno msg)].
Proof.
  intros Hc Hb. unfold final. rewrite (run_bind_fails w Hc Hb).
  simpl. destruct (errno =? 48); reflexivity.
Qed.

(** The number the handler compares with is "address already in use" on
    macOS only. *)
Lemma errno_48_is_darwin (p : platform) :
  (EADDRINUSE p =? 48) = true <-> p = Darwin.
Proof. destruct p; simpl; split; congruence. Qed.

(** On macOS a taken port gets the dedicated message. *)
Lemma port_taken_on_darwin (w : world) (u : unit) (msg : string) :
  os w = Darwin ->
  chdir_result w = Returns u ->
  bind_result w = Raises (OSError (EADDRINUSE (os w)) msg) ->
  printed (log (final w)) = [port_in_use_msg; try_other_port_msg].
Proof.
  intros Ho Hc Hb. rewrite (bind_error_report w Hc Hb), Ho. reflexivity.
Qed.

(** Elsewhere it is reported as any other error. *)
Lemma port_taken_elsewhere (w : world) (u : unit) (msg : string) :
  os w <> Darwin ->
  chdir_result w = Returns u ->
  bind_result w = Raises (OSError (EADDRINUSE (os w)) msg) ->
  printed (log (final w)) = [start_error_msg (OSError (EADDRINUSE (os w)) msg)].
Proof.
  intros Ho Hc Hb. rewrite (bind_error_report w Hc Hb).
  destruct (EADDRINUSE (os w) =? 48) eqn:E; [|reflexivity].
  apply errno_48_is_darwin in E. contradiction.
Qed.

(** A refusal for another reason is reported with the system's message. *)
Example bind_denied_report :
  printed (log (final w_bind_denied))
  = ["❌ Error starting server: [Errno 13] Permission denied"].
Proof. reflexivity. Qed.

(** C3: a second instance on Linux finds port 8000 taken; the constructor
    raises [OSError] with [errno.EADDRINUSE], which is 98 there.  The
    handler compares with 48, so the run prints the generic start error and
    never the "port in use" lines. *)
Theorem port_taken_on_linux_gets_generic_error :
  bind_result w_linux_port_taken
    = Raises (OSError (EADDRINUSE (os w_linux_port_taken))
                "Address already in use")
  /\ printed (log (final w_linux_port_taken))
     = ["❌ Error starting server: [Errno 98] Address already in use"]
  /\ ~ In "❌ Port 8000 is already in use"
          (printed (log (final w_linux_port_taken)))
  /\ printed (log (final w_darwin_port_taken))
     = ["❌ Port 8000 is already in use";
        "Try a different port or stop the existing server"].
Proof.
  split; [reflexivity|]. split; [reflexivity|]. split; [|reflexivity].
  simpl. intros [H|[]]. discriminate H.
Qed.

(** ** Interrupt *)

Lemma startup_not_serving (w : world) (dir : string) :
  ~ In EServeForever (startup_log w dir).
Proof.
  unfold startup_log. destruct (no_browser (argv w)); simpl;
    intuition discriminate.
Qed.

Lemma prints_not_serving (lines : list string) :
  ~ In EServeForever (map EPrint lines).
Proof. intros H. apply in_map_iff in H. destruct H as (x & Hx & _). discriminate. Qed.

(** When the browser step raises, the serving loop is never entered. *)
Lemma browser_raise_skips_serving (w : world) {u u' : unit} {e : exn} :
  chdir_result w = Returns u -> bind_result w = Returns u' ->
  browser_step w = Raises e ->
  ~ In EServeForever (log (final w))
  /\ In EServerClose (log (final w))
  /\ result w = fst (handlers e (mkProc (script_dir w) [])).
Proof.
  intros Hc Hb He. unfold final, result. rewrite (run_bound w Hc Hb), He.
  destruct (handlers_log e (mkProc (script_dir w)
             (startup_log w (script_dir w) ++ [EServerClose])))
    as (lines & Hl & _).
  rewrite Hl. cbn [log]. split; [|split].
  - intros H. apply in_app_or in H. destruct H as [H|H].
    + apply in_app_or in H. destruct H as [H|H].
      * exact (startup_not_serving _ _ H).
      * simpl in H. intuition discriminate.
    + exact (prints_not_serving _ H).
  - apply in_or_app. left. apply in_or_app. right. left. reflexivity.
  - rewrite !handlers_caught. reflexivity.
Qed.

(** C4: Ctrl+C while the server is serving.  [serve_forever] raises
    [KeyboardInterrupt]; the listener is closed, the shutdown notice is the
    last thing printed, and [main] returns, so the exit status is 0. *)
Theorem interrupt_stops_cleanly (w : world) :
  chdir_result w = Returns tt -> bind_result w = Returns tt ->
  In EServeForever (log (final w)) ->
  serve_result w = Some KeyboardInterrupt ->
  result w = Val tt
  /\ exit_code (result w) = Some 0
  /\ traceback (result w) = None
  /\ log (final w)
     = (startup_log w (script_dir w)
        ++ [EServeForever; EServerClose; EPrint (String "010" "🛑 Server stopped")])%list.
Proof.
  intros Hc Hb Hin Hs.
  destruct (browser_step w) as [[]|e] eqn:Hstep.
  - unfold result, final. rewrite (run_bound w Hc Hb), Hstep, Hs. simpl.
    rewrite <- app_assoc. repeat split.
  - destruct (browser_raise_skips_serving w Hc Hb Hstep) as (Hno & _).
    contradiction.
Qed.

Lemma interrupt_stops_cleanly_witness :
  exit_code (result w_plain) = Some 0
  /\ last (printed (log (final w_plain))) "" = stopped_msg.
Proof.
  destruct (interrupt_stops_cleanly w_plain) as (_ & H0 & _ & Hl).
  - reflexivity.
  - reflexivity.
  - simpl. do 11 right. left. reflexivity.
  - reflexivity.
  - split; [exact H0|]. rewrite Hl. reflexivity.
  Defined.

(** ** Browser failures *)

(** C7, as stated, fails: when [webbrowser.open] raises, here because the
    registered browser binary is gone, nothing around the call catches it.
    The [with] block is left, the listener is closed, the [OSError] clause
    reports a start error and [main] returns without ever serving. *)
Lemma browser_exception_stops_server :
  chdir_result w_browser_raises = Returns tt
  /\ bind_result w_browser_raises = Returns tt
  /\ browser_calls (log (final w_browser_raises)) = [index_url]
  /\ ~ In EServeForever (log (final w_browser_raises))
  /\ exit_code (result w_browser_raises) = Some 0
  /\ last (printed (log (final w_browser_raises))) ""
     = "❌ Error starting server: [Errno 2] No such file or directory: 'firefox'".
Proof.
  repeat split.
  simpl. intuition discriminate.
Qed.

(** C7, amended: a browser-open call that returns, also with [False] (how
    [webbrowser.open] says that no browser could be started), never stops
    the server: the result is dropped and [serve_forever] is entered next.
    A call that raises is not caught at the call: the listener is closed
    and the serving loop is never entered. *)
Theorem browser_result_is_dropped (w : world) :
  chdir_result w = Returns tt -> bind_result w = Returns tt ->
  (forall b, browser_result w = Returns b ->
     exists rest,
       log (final w)
       = (startup_log w (script_dir w) ++ EServeForever :: rest)%list)
  /\ (forall e, no_browser (argv w) = false ->
        browser_result w = Raises e ->
        ~ In EServeForever (log (final w))
        /\ In EServerClose (log (final w))
        /\ exit_code (result w) <> None).
Proof.
  intros Hc Hb. split.
  - intros b Hr.
    assert (Hstep : browser_step w = Returns tt).
    { unfold browser_step. rewrite Hr. destruct (no_browser (argv w)); reflexivity. }
    unfold final. rewrite (run_bound w Hc Hb), Hstep.
    destruct (serve_result w) as [e|].
    + destruct (handlers_log e (mkProc (script_dir w)
                 (startup_log w (script_dir w) ++ [EServeForever; EServerClose])))
        as (lines & Hl & _).
      rewrite Hl. simpl. rewrite <- app_assoc. eexists. reflexivity.
    + simpl. eexists. reflexivity.
  - intros e Hn Hr.
    assert (Hstep : browser_step w = Raises e).
    { unfold browser_step. rewrite Hn, Hr. reflexivity. }
    destruct (browser_raise_skips_serving w Hc Hb Hstep) as (H1 & H2 & H3).
    split; [exact H1|]. split; [exact H2|].
    rewrite H3, handlers_caught. destruct e; discriminate.
Qed.

Lemma browser_result_is_dropped_witness :
  (exists rest,
     log (final w_browser_false)
     = (startup_log w_browser_false (script_dir w_browser_false)
        ++ EServeForever :: rest)%list)
  /\ ~ In EServeForever (log (final w_browser_raises)).
Proof.
  split.
  - apply (proj1 (browser_result_is_dropped w_browser_false eq_refl eq_refl)
             false).
    reflexivity.
  - apply (proj2 (browser_result_is_dropped w_browser_raises eq_refl eq_refl)
             (OSError 2 "No such file or directory: 'firefox'")).
    + reflexivity.
    + reflexivity.
  Defined.

(** ** Strings *)

Lemma append_nil_r (s : string) : s ++ "" = s.
Proof. induction s; simpl; congruence. Qed.

Lemma append_assoc (a b c : string) : (a ++ b) ++ c = a ++ b ++ c.
Proof. induction a; simpl; congruence. Qed.

Lemma length_append (a b : string) :
  String.length (a ++ b) = (String.length a + String.length b)%nat.
Proof. induction a; simpl; congruence. Qed.

Lemma concat_cons (x : string) (l : list string) :
  String.concat "" (x :: l) = x ++ String.concat "" l.
Proof. destruct l; simpl; [rewrite append_nil_r|]; reflexivity. Qed.

Lemma concat_app (l1 l2 : list string) :
  String.concat "" (l1 ++ l2) = String.concat "" l1 ++ String.concat "" l2.
Proof.
  induction l1 as [|x l1 IH]; [reflexivity|].
  rewrite <- app_comm_cons, !concat_cons, IH, append_assoc. reflexivity.
Qed.

(** ** The handler *)

Section Handler.

Import BaseHTTPRequestHandler.

Variable h : handler.



(** The override on a request that gets headers: the two lines join the
    buffer, then the blank line, and the buffer is written in one piece. *)
Lemma cors_end_headers_writes :
  has_headers h = true ->
  CORSHTTPRequestHandler.end_headers h =
    mkHandler (request_version h) (path h) (close_connection h) []
      (wfile h ++ [String.concat "" (headers_buffer h)
                   ++ coep_line ++ coop_line ++ CRLF]).
Proof.
  intros Hh. unfold CORSHTTPRequestHandler.end_headers.
  assert (E1 : send_header h "Cross-Origin-Embedder-Policy" "require-corp"
               = buffer_append h coep_line).
  { unfold send_header. rewrite Hh. reflexivity. }
  rewrite E1.
  assert (H1 : has_headers (buffer_append h coep_line) = true) by exact Hh.
  assert (E2 : send_header (buffer_append h coep_line)
                 "Cross-Origin-Opener-Policy" "same-origin"
               = buffer_append (buffer_append h coep_line) coop_line).
  { unfold send_header. rewrite H1. reflexivity. }
  rewrite E2.
  assert (H2 : has_headers (buffer_append (buffer_append h coep_line) coop_line)
               = true) by exact Hh.
  unfold end_headers. rewrite H2.
  unfold flush_headers, buffer_append. cbn [request_version path
    close_connection headers_buffer wfile].
  do 3 f_equal.
  rewrite !concat_app.
  change (String.concat "" [coep_line]) with coep_line.
  change (String.concat "" [coop_line]) with coop_line.
  change (String.concat "" [CRLF]) with CRLF.
  rewrite !append_assoc. reflexivity.
Qed.

(** On HTTP/0.9 nothing is buffered and nothing is written. *)
Lemma cors_end_headers_simple_request :
  has_headers h = false -> CORSHTTPRequestHandler.end_headers h = h.
Proof.
  intros Hh.
  assert (E : forall k v, lower k <> "connection" -> send_header h k v = h).
  { intros k v Hk. unfold send_header. rewrite Hh.
    destruct (String.eqb_spec (lower k) "connection"); [contradiction|reflexivity]. }
  unfold CORSHTTPRequestHandler.end_headers.
  rewrite !E by (cbv; discriminate).
  unfold end_headers. rewrite Hh. reflexivity.
Qed.

End Handler.










(** ** Paths *)

Section Paths.

Import posixpath.

Lemma component_spec (c : string) :
  component c = true ->
  c <> "" /\ c <> "." /\ c <> ".." /\ has_sep c = false.
Proof.
  unfold component. rewrite !andb_true_iff, !negb_true_iff.
  intros [[[H1 H2] H3] H4].
  apply String.eqb_neq in H1, H2, H3. auto.
Qed.

Lemma component_head (c : string) :
  component c = true ->
  exists a s, c = String a s /\ Ascii.eqb a "/" = false /\ has_sep s = false.
Proof.
  intros H. destruct (component_spec c H) as (Hne & _ & _ & Hs).
  destruct c as [|a s]; [congruence|].
  simpl in Hs. apply orb_false_iff in Hs. exists a, s. tauto.
Qed.

(** *** [split] and [concat] *)

Lemma split_no_sep (c : string) : has_sep c = false -> split c = [c].
Proof.
  induction c as [|a c IH]; simpl; [reflexivity|].
  intros H. apply orb_false_iff in H. destruct H as [Ha Hc].
  rewrite Ha, (IH Hc). reflexivity.
Qed.

Lemma split_field (c s : string) :
  has_sep c = false -> split (c ++ "/" ++ s) = c :: split s.
Proof.
  induction c as [|a c IH]; simpl; [reflexivity|].
  intros H. apply orb_false_iff in H. destruct H as [Ha Hc].
  rewrite Ha. simpl in IH. rewrite (IH Hc). reflexivity.
Qed.

Lemma concat_sep_cons (c c' : string) (cs : list string) :
  String.concat "/" (c :: c' :: cs) = c ++ "/" ++ String.concat "/" (c' :: cs).
Proof. reflexivity. Qed.

Lemma split_concat (cs : list string) :
  forallb component cs = true -> cs <> [] ->
  split (String.concat "/" cs) = cs.
Proof.
  induction cs as [|c cs IH]; [congruence|].
  intros H _. simpl in H. apply andb_true_iff in H. destruct H as [Hc Hcs].
  destruct (component_spec c Hc) as (_ & _ & _ & Hs).
  destruct cs as [|c' cs].
  - apply split_no_sep, Hs.
  - rewrite concat_sep_cons, (split_field _ _ Hs), IH; [reflexivity|exact Hcs|discriminate].
Qed.

Lemma concat_sep_app (l1 l2 : list string) :
  l1 <> [] -> l2 <> [] ->
  String.concat "/" (l1 ++ l2)
  = String.concat "/" l1 ++ "/" ++ String.concat "/" l2.
Proof.
  induction l1 as [|c l1 IH]; [congruence|].
  intros _ H2. destruct l1 as [|c' l1].
  - destruct l2 as [|d l2]; [congruence|]. reflexivity.
  - rewrite <- app_comm_cons, <- app_comm_cons, concat_sep_cons.
    rewrite app_comm_cons, IH by (auto; discriminate).
    rewrite concat_sep_cons, !append_assoc. reflexivity.
Qed.

Lemma forallb_component_app (l1 l2 : list string) :
  forallb component (l1 ++ l2) = true <->
  forallb component l1 = true /\ forallb component l2 = true.
Proof. rewrite forallb_app, andb_true_iff. reflexivity. Qed.

(** A non-empty list of names starts with a character that is not the
    separator. *)
Lemma concat_head (cs : list string) :
  forallb component cs = true -> cs <> [] ->
  exists a s, String.concat "/" cs = String a s /\ Ascii.eqb a "/" = false.
Proof.
  destruct cs as [|c cs]; [congruence|]. intros H _.
  simpl in H. apply andb_true_iff in H. destruct H as [Hc _].
  destruct (component_head c Hc) as (a & s & -> & Ha & _).
  destruct cs; simpl; eauto.
Qed.

(** *** [normpath] leaves a clean absolute path alone *)

Lemma normpath_step_component (i : Z) (acc : list string) (c : string) :
  component c = true -> normpath_step i acc c = (acc ++ [c])%list.
Proof.
  intros H. destruct (component_spec c H) as (H1 & H2 & H3 & _).
  apply String.eqb_neq in H1, H2, H3.
  unfold normpath_step. rewrite H1, H2, H3. reflexivity.
Qed.

Lemma normpath_loop_components (i : Z) (cs acc : list string) :
  forallb component cs = true ->
  fold_left (normpath_step i) cs acc = (acc ++ cs)%list.
Proof.
  revert acc. induction cs as [|c cs IH]; intros acc H; simpl.
  - rewrite app_nil_r. reflexivity.
  - simpl in H. apply andb_true_iff in H. destruct H as [Hc Hcs].
    rewrite (normpath_step_component i acc c Hc), (IH _ Hcs), <- app_assoc.
    reflexivity.
Qed.

Lemma ascii_eqb_dec (a b : ascii) (A : Type) (x y : A) :
  (if ascii_dec a b then x else y) = if Ascii.eqb a b then x else y.
Proof.
  destruct (ascii_dec a b) as [->|H].
  - rewrite Ascii.eqb_refl. reflexivity.
  - apply Ascii.eqb_neq in H. rewrite H. reflexivity.
Qed.

Lemma prefix_empty (s : string) : String.prefix "" s = true.
Proof. destruct s; reflexivity. Qed.

Lemma startswith_sep_cons (s : string) : startswith sep (String "/" s) = true.
Proof. unfold startswith, sep. simpl. apply prefix_empty. Qed.

Lemma startswith_sep_other (a : ascii) (s : string) :
  Ascii.eqb a "/" = false -> startswith sep (String a s) = false.
Proof.
  intros Ha. unfold startswith, sep. simpl.
  rewrite ascii_eqb_dec, Ascii.eqb_sym, Ha. reflexivity.
Qed.

Lemma normpath_abs_path (cs : list string) :
  forallb component cs = true -> normpath (abs_path cs) = abs_path cs.
Proof.
  intros H. unfold normpath, abs_path.
  change ("/" ++ String.concat "/" cs) with (String "/" (String.concat "/" cs)).
  cbn [String.eqb].
  rewrite startswith_sep_cons.
  destruct cs as [|c cs'] eqn:E.
  - reflexivity.
  - rewrite <- E in *. assert (Hne : cs <> []) by (rewrite E; discriminate).
    destruct (concat_head cs H Hne) as (a & s & Hs & Ha).
    assert (S2 : startswith "//" (String "/" (String.concat "/" cs)) = false).
    { rewrite Hs. unfold startswith. simpl.
      rewrite ascii_eqb_dec, Ascii.eqb_sym, Ha. reflexivity. }
    rewrite S2. cbn [andb].
    change (split (String "/" (String.concat "/" cs)))
      with (EmptyString :: split (String.concat "/" cs)).
    cbn [fold_left].
    change (normpath_step 1 [] "") with (@nil string).
    rewrite (split_concat cs H Hne), (normpath_loop_components 1 cs [] H).
    simpl. reflexivity.
Qed.

(** *** [join] with the launch directory *)

Lemma endswith_sep_append (p c : string) :
  c <> "" -> endswith_sep (p ++ c) = endswith_sep c.
Proof.
  intros Hc. induction p as [|a p IH]; [reflexivity|].
  simpl. destruct (p ++ c) eqn:E; [|exact IH].
  destruct p; simpl in E; [congruence|discriminate].
Qed.

Lemma endswith_sep_no_sep (c : string) :
  has_sep c = false -> endswith_sep c = false.
Proof.
  induction c as [|a c IH]; [reflexivity|].
  simpl. intros H. apply orb_false_iff in H. destruct H as [Ha Hc].
  destruct c; [exact Ha|exact (IH Hc)].
Qed.

Lemma endswith_sep_names (p : string) (cs : list string) :
  forallb component cs = true -> cs <> [] ->
  endswith_sep (p ++ String.concat "/" cs) = false.
Proof.
  revert p. induction cs as [|c cs IH]; [congruence|].
  intros p H _. simpl in H. apply andb_true_iff in H. destruct H as [Hc Hcs].
  destruct (component_spec c Hc) as (Hne & _ & _ & Hs).
  destruct cs as [|c' cs].
  - simpl. rewrite endswith_sep_append by exact Hne.
    apply endswith_sep_no_sep, Hs.
  - rewrite concat_sep_cons.
    rewrite <- (append_assoc c "/"), <- (append_assoc p).
    apply IH; [exact Hcs|discriminate].
Qed.

Lemma join_launch_dir (base rest : list string) :
  forallb component base = true -> forallb component rest = true ->
  rest <> [] ->
  join (abs_path base) (rel_path rest) = abs_path (base ++ rest).
Proof.
  intros Hb Hr Hne. unfold join, rel_path.
  destruct (concat_head rest Hr Hne) as (a & s & Hs & Ha).
  rewrite Hs at 1. rewrite (startswith_sep_other a s Ha).
  destruct base as [|b base'] eqn:E.
  - reflexivity.
  - rewrite <- E in *. assert (Hbne : base <> []) by (rewrite E; discriminate).
    unfold abs_path at 1 2.
    change (("/" ++ String.concat "/" base =? "")%string) with false.
    rewrite (endswith_sep_names "/" base Hb Hbne). cbn [orb].
    unfold abs_path, sep. rewrite (concat_sep_app base rest Hbne Hne).
    rewrite !append_assoc. reflexivity.
Qed.

Lemma abspath_script (w : world) (dir : list string) (name : string) :
  forallb component dir = true -> component name = true ->
  script_in w dir name ->
  abspath (start_dir w) (script_file w) = abs_path (dir ++ [name]).
Proof.
  intros Hd Hn Hin.
  assert (Hall : forallb component (dir ++ [name]) = true).
  { apply forallb_component_app. split; [exact Hd|]. simpl. rewrite Hn. reflexivity. }
  unfold abspath, isabs. destruct Hin as [Hf|base rel -> Hbase Hs Hf].
  - rewrite Hf. unfold abs_path at 1.
    change ("/" ++ String.concat "/" (dir ++ [name]))
      with (String "/" (String.concat "/" (dir ++ [name]))).
    rewrite startswith_sep_cons.
    apply (normpath_abs_path _ Hall).
  - apply forallb_component_app in Hd. destruct Hd as [_ Hrel].
    assert (Hrest : forallb component (rel ++ [name]) = true).
    { apply forallb_component_app. split; [exact Hrel|]. simpl. rewrite Hn. reflexivity. }
    assert (Hne : (rel ++ [name])%list <> []) by (destruct rel; discriminate).
    rewrite Hf, Hs. unfold rel_path at 1.
    destruct (concat_head _ Hrest Hne) as (a & s & Hc & Ha).
    rewrite Hc, (startswith_sep_other a s Ha).
    rewrite (join_launch_dir base (rel ++ [name]) Hbase Hrest Hne).
    rewrite app_assoc. apply (normpath_abs_path _ Hall).
Qed.

(** *** [dirname] drops the last name *)

Lemma rfind_no_sep (n : string) (i : Z) :
  has_sep n = false -> rfind_from n i = -1.
Proof.
  revert i. induction n as [|a n IH]; intros i H; [reflexivity|].
  simpl in *. apply orb_false_iff in H. destruct H as [Ha Hn].
  rewrite (IH _ Hn), Ha. reflexivity.
Qed.

Lemma rfind_last_sep (a n : string) (i : Z) :
  0 <= i -> has_sep n = false ->
  rfind_from (a ++ "/" ++ n) i = i + Z.of_nat (String.length a).
Proof.
  revert i. induction a as [|c a IH]; intros i Hi Hn.
  - simpl. rewrite (rfind_no_sep n (i + 1) Hn). simpl. lia.
  - change (rfind_from (String c a ++ "/" ++ n) i)
      with (let r := rfind_from (a ++ "/" ++ n) (i + 1) in
            if 0 <=? r then r else if Ascii.eqb c "/" then i else -1).
    cbv zeta. rewrite (IH (i + 1)) by (auto; lia).
    cbn [String.length].
    destruct (Z.leb_spec 0 (i + 1 + Z.of_nat (String.length a))); lia.
Qed.

Lemma substring_prefix (x y : string) :
  substring 0 (String.length x) (x ++ y) = x.
Proof.
  induction x as [|c x IH]; simpl.
  - destruct y; reflexivity.
  - rewrite IH. reflexivity.
Qed.

Lemma rstrip_sep_end (s : string) : rstrip (s ++ "/") = rstrip s.
Proof.
  induction s as [|c s IH]; [reflexivity|].
  simpl. rewrite IH. reflexivity.
Qed.

Lemma rstrip_no_trailing_sep (s : string) :
  endswith_sep s = false -> rstrip s = s.
Proof.
  induction s as [|c s IH]; [reflexivity|].
  intros H. simpl in H. destruct s as [|c' s'].
  - simpl. rewrite H. reflexivity.
  - change (rstrip (String c (String c' s')))
      with (match rstrip (String c' s') with
            | EmptyString =>
                if Ascii.eqb c "/" then EmptyString else String c EmptyString
            | t => String c t
            end).
    rewrite (IH H). reflexivity.
Qed.

(** The head that [dirname] cuts off a path ending in a plain name. *)
Lemma dirname_head (a n : string) :
  has_sep n = false ->
  substring 0 (Z.to_nat (rfind (a ++ "/" ++ n) + 1)) (a ++ "/" ++ n)
  = a ++ "/".
Proof.
  intros Hn. unfold rfind. rewrite (rfind_last_sep a n 0) by (auto; lia).
  replace (Z.to_nat (0 + Z.of_nat (String.length a) + 1))
    with (String.length (a ++ "/")) by (rewrite length_append; simpl; lia).
  rewrite <- (append_assoc a "/" n). apply substring_prefix.
Qed.

Lemma dirname_abs_path (cs : list string) (name : string) :
  forallb component cs = true -> component name = true ->
  dirname (abs_path (cs ++ [name])) = abs_path cs.
Proof.
  intros Hcs Hname.
  destruct (component_spec name Hname) as (_ & _ & _ & Hn).
  unfold dirname. destruct cs as [|c cs'] eqn:E.
  - change (abs_path ([] ++ [name])) with ("" ++ "/" ++ name).
    rewrite (dirname_head "" name Hn). reflexivity.
  - rewrite <- E in *. assert (Hne : cs <> []) by (rewrite E; discriminate).
    assert (Hp : abs_path (cs ++ [name]) = abs_path cs ++ "/" ++ name).
    { unfold abs_path. rewrite concat_sep_app by (auto; discriminate).
      rewrite append_assoc. reflexivity. }
    rewrite Hp, (dirname_head (abs_path cs) name Hn).
    destruct (concat_head cs Hcs Hne) as (a & s & Hs & Ha).
    assert (H1 : (abs_path cs ++ "/" =? "")%string = false) by reflexivity.
    assert (H2 : (abs_path cs ++ "/"
                  =? seps (String.length (abs_path cs ++ "/")))%string = false).
    { unfold abs_path. rewrite Hs. simpl. rewrite Ha. reflexivity. }
    rewrite H1, H2. cbn [negb andb].
    rewrite rstrip_sep_end. apply rstrip_no_trailing_sep.
    unfold abs_path. apply endswith_sep_names; assumption.
Qed.

End Paths.

(** The directory [main] changes into is the one holding the script. *)
Lemma script_dir_is_parent (w : world) (dir : list string) (name : string) :
  forallb component dir = true -> component name = true ->
  script_in w dir name ->
  script_dir w = abs_path dir.
Proof.
  intros Hd Hn Hin. unfold script_dir.
  rewrite (abspath_script w dir name Hd Hn Hin).
  apply dirname_abs_path; assumption.
Qed.

(** After a successful [os.chdir] the working directory never changes. *)
Lemma final_cwd (w : world) {u : unit} :
  chdir_result w = Returns u -> cwd (final w) = script_dir w.
Proof.
  intros Hc. unfold final.
  destruct (bind_result w) as [u'|e] eqn:Hb.
  - rewrite (run_bound w Hc Hb).
    destruct (browser_step w) as [[]|e].
    + destruct (serve_result w) as [e|]; [|reflexivity].
      match goal with |- context [handlers e ?s] =>
        destruct (handlers_log e s) as (_ & _ & ->) end.
      reflexivity.
    + match goal with |- context [handlers e ?s] =>
        destruct (handlers_log e s) as (_ & _ & ->) end.
      reflexivity.
  - rewrite (run_bind_fails w Hc Hb).
    match goal with |- context [handlers e ?s] =>
      destruct (handlers_log e s) as (_ & _ & ->) end.
    reflexivity.
Qed.

(** The directory change is the first thing a run does. *)
Lemma log_starts_with_chdir (w : world) :
  exists rest, log (final w) = EChdir (script_dir w) :: rest.
Proof.
  unfold final. destruct (chdir_result w) as [u|e] eqn:Hc.
  - destruct (bind_result w) as [u'|e] eqn:Hb.
    + destruct (final_log_bound w Hc Hb) as (tail & Hl & _).
      unfold final in Hl. rewrite Hl. unfold startup_log.
      eexists. reflexivity.
    + rewrite (run_bind_fails w Hc Hb).
      match goal with |- context [handlers e ?s] =>
        destruct (handlers_log e s) as (lines & -> & _) end.
      eexists. reflexivity.
  - rewrite (run_chdir_fails w Hc). eexists. reflexivity.
Qed.

(** ** Serving directory *)

(** C5: when the script is the file [name] in the directory [dir], the
    first thing a run does is [os.chdir] into [dir]: the directory is
    computed from [__file__] alone (absolute, or relative to the launch
    directory), the change comes before every bind, and once it has
    succeeded the working directory is [dir] for the rest of the run, as
    the banner's "Serving files from" line shows. *)
Theorem serves_from_script_directory
    (w : world) (dir : list string) (name : string) :
  forallb component dir = true -> component name = true ->
  script_in w dir name ->
  (exists rest, log (final w) = EChdir (abs_path dir) :: rest)
  /\ (forall pre host port post,
        log (final w) = (pre ++ EBind host port :: post)%list ->
        In (EChdir (abs_path dir)) pre /\ chdir_result w = Returns tt)
  /\ (chdir_result w = Returns tt -> cwd (final w) = abs_path dir)
  /\ (chdir_result w = Returns tt -> bind_result w = Returns tt ->
      In (EPrint ("📁 Serving files from: " ++ abs_path dir)) (log (final w))).
Proof.
  intros Hd Hn Hin.
  rewrite <- (script_dir_is_parent w dir name Hd Hn Hin).
  split; [apply log_starts_with_chdir|]. split; [|split].
  - intros pre host port post H.
    destruct (log_starts_with_chdir w) as (rest & Hl).
    rewrite Hl in H. destruct pre as [|e pre]; [discriminate|].
    injection H as <- H. split; [left; reflexivity|].
    destruct (chdir_result w) as [[]|e] eqn:Hc; [reflexivity|].
    unfold final in Hl. rewrite (run_chdir_fails w Hc) in Hl.
    injection Hl as <-. destruct pre; discriminate.
  - intros Hc. apply (final_cwd w Hc).
  - intros Hc Hb. destruct (final_log_bound w Hc Hb) as (tail & Hl & _).
    rewrite Hl. apply in_or_app. left. unfold startup_log.
    apply in_or_app. right. apply in_or_app. left.
    right. left. reflexivity.
Qed.

Lemma serves_from_script_directory_witness :
  cwd (final w_plain) = "/home/u/game"
  /\ cwd (final w_relative) = "/home/u/game".
Proof.
  split.
  - apply (proj1 (proj2 (proj2 (serves_from_script_directory w_plain
             ["home"; "u"; "game"] "server.py" eq_refl eq_refl
             (script_absolute w_plain ["home"; "u"; "game"] "server.py"
                eq_refl))))).
    reflexivity.
  - apply (proj1 (proj2 (proj2 (serves_from_script_directory w_relative
             ["home"; "u"; "game"] "server.py" eq_refl eq_refl
             (script_relative w_relative ["home"; "u"; "game"] "server.py"
                ["home"; "u"; "game"] [] eq_refl eq_refl eq_refl eq_refl))))).
    reflexivity.
  Defined.

(** * Further properties of [main] *)

(** A run whose directory change succeeded, by what ends the [try]
    block. *)
Lemma run_block (w : world) {u : unit} :
  chdir_result w = Returns u ->
  exists l,
    run w = match block_exception w with
            | Some e => handlers e (mkProc (script_dir w) l)
            | None => (Serving, mkProc (script_dir w) l)
            end
    /\ printed l = (match bind_result w with
                    | Returns _ => banner_lines (script_dir w)
                    | Raises _ => []
                    end)
    /\ server_closes l = (match block_exception w with
                          | Some _ => 1%nat
                          | None => 0%nat
                          end)
    /\ (server_closes l = 1%nat -> exists pre, l = (pre ++ [EServerClose])%list).
Proof.
  intros Hc. unfold block_exception.
  destruct (bind_result w) as [u'|e] eqn:Hb.
  - rewrite (run_bound w Hc Hb). unfold startup_log.
    destruct (browser_step w) as [[]|e].
    + destruct (serve_result w) as [e|].
      * eexists. split; [reflexivity|].
        destruct (no_browser (argv w)); repeat split;
          intros _; eexists; rewrite app_assoc;
          change [EServeForever; EServerClose]
            with ([EServeForever] ++ [EServerClose])%list;
          rewrite app_assoc; reflexivity.
      * eexists. split; [reflexivity|].
        destruct (no_browser (argv w)); repeat split; discriminate.
    + eexists. split; [reflexivity|].
      destruct (no_browser (argv w)); repeat split;
        intros _; eexists; rewrite app_assoc; reflexivity.
  - rewrite (run_bind_fails w Hc Hb). eexists. split; [reflexivity|].
    repeat split. intros _.
    exists [EChdir (script_dir w); EBind "" PORT]. reflexivity.
Qed.

Lemma handlers_lines (e : exn) (s : proc) :
  snd (handlers e s) = mkProc (cwd s) (log s ++ map EPrint (handler_lines e)).
Proof.
  destruct e as [|n msg|name msg]; simpl; try reflexivity.
  - destruct (n =? 48); [|reflexivity].
    unfold bind, print, emit; simpl. rewrite <- app_assoc. reflexivity.
  - rewrite app_nil_r. destruct s; reflexivity.
Qed.



(** No message of the handlers is a line of the banner. *)
Lemma handler_line_not_banner (e : exn) (dir line : string) :
  In line (handler_lines e) -> ~ In line (banner_lines dir).
Proof.
  intros H Hb. unfold banner_lines in Hb. simpl in Hb.
  destruct e as [|n msg|name msg]; simpl in H.
  - destruct H as [<-|[]].
    unfold stopped_msg in Hb. intuition discriminate.
  - destruct (n =? 48); simpl in H.
    + destruct H as [<-|[<-|[]]]; cbv in Hb; intuition discriminate.
    + destruct H as [<-|[]]. unfold start_error_msg in Hb. simpl in Hb.
      intuition discriminate.
  - exact H.
Qed.

(** What a run prints: the banner when the listener was bound, then the
    message of the handler that took the exception. *)
Lemma printed_final (w : world) {u : unit} :
  chdir_result w = Returns u ->
  printed (log (final w)) =
    ((match bind_result w with
      | Returns _ => banner_lines (script_dir w)
      | Raises _ => []
      end)
     ++ (match block_exception w with
         | Some e => handler_lines e
         | None => []
         end))%list.
Proof.
  intros Hc. unfold final.
  destruct (run_block w Hc) as (l & Hr & Hp & _). rewrite Hr.
  destruct (block_exception w) as [e|].
  - rewrite handlers_lines. cbn [log]. rewrite printed_app, printed_prints, Hp.
    reflexivity.
  - cbn [snd log]. rewrite Hp, app_nil_r. reflexivity.
Qed.

(** X1: no banner line is printed unless the listener was bound.  When
    [os.chdir] or the constructor raises, nothing the run prints is a line
    of the banner, for whatever directory the banner would name. *)
Theorem banner_only_after_bind (w : world) (dir line : string) :
  (exists e, chdir_result w = Raises e)
  \/ (chdir_result w = Returns tt /\ exists e, bind_result w = Raises e) ->
  In line (printed (log (final w))) ->
  ~ In line (banner_lines dir).
Proof.
  intros [(e & Hc)|(Hc & e & Hb)] Hin.
  - unfold final in Hin. rewrite (run_chdir_fails w Hc) in Hin.
    destruct Hin.
  - rewrite (printed_final w Hc), Hb in Hin.
    unfold block_exception in Hin. rewrite Hb in Hin.
    apply (handler_line_not_banner e). exact Hin.
Qed.

Lemma banner_only_after_bind_witness :
  ~ In "❌ Error starting server: [Errno 98] Address already in use"
       (banner_lines "/home/u/game").
Proof.
  apply (banner_only_after_bind w_linux_port_taken).
  - right. split; [reflexivity|]. eexists. reflexivity.
  - left. reflexivity.
  Defined.



(** X3: [os.chdir] runs before the [try] statement.  Whatever it raises,
    also an [OSError] or a [KeyboardInterrupt] that the [except] clauses
    would take, leaves [main] unhandled: no bind is attempted, nothing is
    printed, and the working directory is still the launch directory. *)
Theorem chdir_failure_escapes (w : world) (e : exn) :
  chdir_result w = Raises e ->
  result w = Exc e
  /\ bind_calls (log (final w)) = []
  /\ printed (log (final w)) = []
  /\ cwd (final w) = start_dir w.
Proof.
  intros Hc. unfold result, final. rewrite (run_chdir_fails w Hc).
  repeat split.
Qed.

Lemma chdir_failure_escapes_witness :
  result w_chdir_fails
  = Exc (OSError 2 "No such file or directory: '/home/u/game'")
  /\ printed (log (final w_chdir_fails)) = [].
Proof.
  destruct (chdir_failure_escapes w_chdir_fails
              (OSError 2 "No such file or directory: '/home/u/game'")
              eq_refl) as (H1 & _ & H2 & _).
  split; [exact H1 | exact H2].
  Defined.

Lemma result_block (w : world) {u : unit} :
  chdir_result w = Returns u ->
  result w = match block_exception w with
             | Some (OtherException name msg) => Exc (OtherException name msg)
             | Some _ => Val tt
             | None => Serving
             end.
Proof.
  intros Hc. unfold result.
  destruct (run_block w Hc) as (l & Hr & _). rewrite Hr.
  destruct (block_exception w) as [e|]; [|reflexivity].
  rewrite handlers_caught. destruct e; reflexivity.
Qed.



(** X5: the [except OSError] clause spans the whole block.  An [OSError]
    raised after a successful bind, by the browser call or by the serving
    loop, is reported after the banner as a failure to start (or, with
    errno 48, as a port in use), and the process exits with status 0. *)
Theorem late_oserror_reported_as_start_error
    (w : world) (n : Z) (msg : string) :
  chdir_result w = Returns tt -> bind_result w = Returns tt ->
  block_exception w = Some (OSError n msg) ->
  printed (log (final w)) =
    (banner_lines (script_dir w)
     ++ (if n =? 48
         then ["❌ Port 8000 is already in use";
               "Try a different port or stop the existing server"]
         else [start_error_msg (OSError n msg)]))%list
  /\ exit_code (result w) = Some 0.
Proof.
  intros Hc Hb He. rewrite (printed_final w Hc), (result_block w Hc), Hb, He.
  split; reflexivity.
Qed.

Lemma late_oserror_reported_as_start_error_witness :
  last (printed (log (final w_serve_oserror))) ""
  = "❌ Error starting server: [Errno 24] Too many open files".
Proof.
  destruct (late_oserror_reported_as_start_error w_serve_oserror
              24 "Too many open files" eq_refl eq_refl eq_refl) as [H _].
  rewrite H. reflexivity.
  Defined.

(** X6: the [except KeyboardInterrupt] clause spans the whole block too.
    Ctrl+C while the constructor binds or while the browser is started is
    handled like one during serving: the shutdown notice is printed last
    (after the banner, if the listener was bound) and the exit status is
    0. *)
Theorem interrupt_anywhere_in_block (w : world) :
  chdir_result w = Returns tt ->
  block_exception w = Some KeyboardInterrupt ->
  result w = Val tt
  /\ exit_code (result w) = Some 0
  /\ printed (log (final w)) =
       ((match bind_result w with
         | Returns _ => banner_lines (script_dir w)
         | Raises _ => []
         end) ++ [String "010" "🛑 Server stopped"])%list.
Proof.
  intros Hc He. rewrite (printed_final w Hc), (result_block w Hc), He.
  repeat split.
Qed.

Lemma interrupt_anywhere_in_block_witness :
  exit_code (result w_interrupt_in_browser) = Some 0
  /\ last (printed (log (final w_interrupt_in_browser))) "" = stopped_msg.
Proof.
  destruct (interrupt_anywhere_in_block w_interrupt_in_browser
              eq_refl eq_refl) as (_ & H0 & Hp).
  split; [exact H0|]. rewrite Hp. reflexivity.
  Defined.

(** * Further properties of the handler *)

(** X8: finishing the headers never touches the connection: the two
    injected headers leave [close_connection], the request's version and
    path as they were and keep everything already written to the client,
    whereas a [Connection: close] header sent the same way does switch
    [close_connection] on. *)
Theorem isolation_headers_leave_connection_alone (h : handler) :
  close_connection (CORSHTTPRequestHandler.end_headers h) = close_connection h
  /\ request_version (CORSHTTPRequestHandler.end_headers h) = request_version h
  /\ path (CORSHTTPRequestHandler.end_headers h) = path h
  /\ firstn (length (wfile h)) (wfile (CORSHTTPRequestHandler.end_headers h))
     = wfile h
  /\ close_connection
       (BaseHTTPRequestHandler.send_header h "Connection" "close") = true.
Proof.
  assert (Hc : close_connection
                 (BaseHTTPRequestHandler.send_header h "Connection" "close")
               = true).
  { unfold BaseHTTPRequestHandler.send_header.
    destruct (BaseHTTPRequestHandler.has_headers h); reflexivity. }
  destruct (BaseHTTPRequestHandler.has_headers h) eqn:Hh.
  - rewrite (cors_end_headers_writes h Hh). cbn [close_connection
      request_version path wfile].
    repeat split; try exact Hc.
    rewrite firstn_app, Nat.sub_diag, firstn_all. simpl.
    apply app_nil_r.
  - rewrite (cors_end_headers_simple_request h Hh).
    repeat split; try exact Hc. apply firstn_all.
Qed.






(** * Further properties of the directory change *)

Section AbsoluteTarget.

Import posixpath.

Lemma startswith_sep_inv (s : string) :
  startswith sep s = true -> exists r, s = String "/" r.
Proof.
  unfold startswith, sep. destruct s as [|c s]; simpl; [discriminate|].
  rewrite ascii_eqb_dec. destruct (Ascii.eqb_spec "/" c) as [<-|]; [|discriminate].
  intros _. exists s. reflexivity.
Qed.

Lemma normpath_keeps_root (rest : string) :
  exists r, normpath (String "/" rest) = String "/" r.
Proof.
  unfold normpath. cbn [String.eqb]. rewrite startswith_sep_cons.
  destruct (startswith "//" (String "/" rest)
            && negb (startswith "///" (String "/" rest)));
    cbn [Z.eqb Z.to_nat Pos.to_nat Pos.iter_op Nat.add seps append String.eqb];
    eexists; reflexivity.
Qed.

Lemma join_keeps_root (c b : string) :
  exists r, join (String "/" c) b = String "/" r.
Proof.
  unfold join. destruct (startswith sep b) eqn:Hb.
  - apply startswith_sep_inv, Hb.
  - destruct ((String "/" c =? "")%string || endswith_sep (String "/" c));
      eexists; reflexivity.
Qed.

Lemma abspath_is_absolute (cwd0 file : string) :
  startswith sep cwd0 = true ->
  exists r, abspath cwd0 file = String "/" r.
Proof.
  intros H. destruct (startswith_sep_inv cwd0 H) as (c & ->).
  unfold abspath, isabs. destruct (startswith sep file) eqn:Hf.
  - destruct (startswith_sep_inv file Hf) as (f & ->).
    apply normpath_keeps_root.
  - destruct (join_keeps_root c file) as (r & ->). apply normpath_keeps_root.
Qed.

Lemma rfind_from_bounds (s : string) (i : Z) :
  rfind_from s i = -1
  \/ (i <= rfind_from s i < i + Z.of_nat (String.length s)).
Proof.
  revert i. induction s as [|c s IH]; intros i; [left; reflexivity|].
  cbn [rfind_from String.length]. cbv zeta.
  destruct (IH (i + 1)) as [E|E].
  - rewrite E. cbn [Z.leb Z.compare].
    destruct (Ascii.eqb c "/"); [right; lia | left; reflexivity].
  - destruct (Z.leb_spec 0 (rfind_from s (i + 1))); [right; lia|].
    destruct (Ascii.eqb c "/"); [right; lia | left; reflexivity].
Qed.

Lemma rfind_root (rest : string) : 0 <= rfind (String "/" rest).
Proof.
  unfold rfind. cbn [rfind_from]. cbv zeta.
  destruct (Z.leb_spec 0 (rfind_from rest (0 + 1))); [assumption|].
  rewrite Ascii.eqb_refl. lia.
Qed.

Lemma rstrip_empty (s : string) :
  rstrip s = "" -> s = seps (String.length s).
Proof.
  induction s as [|c s IH]; [reflexivity|].
  cbn [rstrip String.length seps].
  destruct (rstrip s) eqn:E; [|discriminate].
  destruct (Ascii.eqb_spec c "/") as [->|]; [|discriminate].
  intros _. rewrite <- IH by reflexivity. reflexivity.
Qed.

Lemma rstrip_keeps_root (t : string) :
  String "/" t <> seps (String.length (String "/" t)) ->
  exists r, rstrip (String "/" t) = String "/" r.
Proof.
  intros H. cbn [rstrip]. destruct (rstrip t) eqn:E.
  - exfalso. apply H. cbn [String.length seps]. f_equal.
    apply rstrip_empty, E.
  - eexists. reflexivity.
Qed.

Lemma dirname_keeps_root (rest : string) :
  exists r, dirname (String "/" rest) = String "/" r.
Proof.
  unfold dirname.
  pose proof (rfind_root rest) as H0.
  destruct (Z.to_nat (rfind (String "/" rest) + 1)) as [|m] eqn:Em; [lia|].
  cbn [substring].
  set (t := substring 0 m rest).
  destruct (String.eqb_spec (String "/" t) (seps (String.length (String "/" t))))
    as [E|E].
  - change ((String "/" t =? "")%string) with false. cbn [negb andb].
    eexists. reflexivity.
  - change ((String "/" t =? "")%string) with false. cbn [negb andb].
    apply rstrip_keeps_root, E.
Qed.

Lemma dirname_bare_name (name : string) :
  has_sep name = false -> dirname name = "".
Proof.
  intros H. unfold dirname, rfind. rewrite (rfind_no_sep name 0 H).
  cbn [Z.add Z.to_nat]. destruct name; reflexivity.
Qed.

End AbsoluteTarget.

(** X10: [main] takes [abspath] of [__file__] before [dirname], so the
    directory it changes into is an absolute path, never empty, for every
    value of [__file__], given only that the launch directory is absolute
    (as [os.getcwd()] is).  [dirname] alone would not do: on a bare file
    name such as [server.py] it gives the empty string. *)
Theorem chdir_target_is_absolute (w : world) :
  posixpath.isabs (start_dir w) = true ->
  posixpath.isabs (script_dir w) = true
  /\ script_dir w <> ""
  /\ (forall rest, log (final w) <> EChdir "" :: rest)
  /\ (forall name, has_sep name = false -> posixpath.dirname name = "").
Proof.
  intros H. unfold script_dir.
  destruct (abspath_is_absolute (start_dir w) (script_file w) H) as (r & E).
  assert (Hd : exists d, script_dir w = String "/" d).
  { unfold script_dir. rewrite E. apply dirname_keeps_root. }
  destruct Hd as (d & Hd). fold (script_dir w). rewrite Hd.
  split; [apply startswith_sep_cons|]. split; [discriminate|].
  split; [|exact dirname_bare_name].
  intros rest Hl. destruct (log_starts_with_chdir w) as (rest' & Hl').
  rewrite Hl', Hd in Hl. discriminate.
Qed.

Lemma chdir_target_is_absolute_witness :
  posixpath.isabs (script_dir w_relative) = true
  /\ script_dir w_relative <> "".
Proof.
  destruct (chdir_target_is_absolute w_relative eq_refl) as (H1 & H2 & _).
  split; [exact H1 | exact H2].
  Defined.

Section DottedPaths.

Import posixpath.

Lemma dot_or_name_spec (c : string) :
  dot_or_name c = true ->
  has_sep c = false
  /\ exists a s, c = String a s /\ Ascii.eqb a "/" = false.
Proof.
  unfold dot_or_name. rewrite orb_true_iff. intros [H|H].
  - destruct (component_head c H) as (a & s & -> & Ha & Hs).
    split; [simpl; rewrite Ha, Hs; reflexivity|]. eauto.
  - apply String.eqb_eq in H. subst c. split; [reflexivity|].
    exists "."%char, "". split; reflexivity.
Qed.

Lemma component_is_field (cs : list string) :
  forallb component cs = true -> forallb dot_or_name cs = true.
Proof.
  induction cs as [|c cs IH]; [reflexivity|].
  simpl. rewrite !andb_true_iff. intros [Hc Hcs].
  split; [unfold dot_or_name; rewrite Hc; reflexivity | exact (IH Hcs)].
Qed.

Lemma split_concat_fields (cs : list string) :
  forallb dot_or_name cs = true -> cs <> [] ->
  split (String.concat "/" cs) = cs.
Proof.
  induction cs as [|c cs IH]; [congruence|].
  intros H _. simpl in H. apply andb_true_iff in H. destruct H as [Hc Hcs].
  destruct (dot_or_name_spec c Hc) as (Hs & _).
  destruct cs as [|c' cs].
  - apply split_no_sep, Hs.
  - rewrite concat_sep_cons, (split_field _ _ Hs), IH;
      [reflexivity|exact Hcs|discriminate].
Qed.

Lemma concat_head_fields (cs : list string) :
  forallb dot_or_name cs = true -> cs <> [] ->
  exists a s, String.concat "/" cs = String a s /\ Ascii.eqb a "/" = false.
Proof.
  destruct cs as [|c cs]; [congruence|]. intros H _.
  simpl in H. apply andb_true_iff in H. destruct H as [Hc _].
  destruct (dot_or_name_spec c Hc) as (_ & a & s & -> & Ha).
  destruct cs; simpl; eauto.
Qed.

Lemma normpath_step_dot (i : Z) (acc : list string) :
  normpath_step i acc "." = acc.
Proof. reflexivity. Qed.

Lemma normpath_loop_fields (i : Z) (cs acc : list string) :
  forallb dot_or_name cs = true ->
  fold_left (normpath_step i) cs acc = (acc ++ filter component cs)%list.
Proof.
  revert acc. induction cs as [|c cs IH]; intros acc H; simpl.
  - rewrite app_nil_r. reflexivity.
  - simpl in H. apply andb_true_iff in H. destruct H as [Hc Hcs].
    destruct (component c) eqn:E.
    + rewrite (normpath_step_component i acc c E), (IH _ Hcs), <- app_assoc.
      reflexivity.
    + unfold dot_or_name in Hc. rewrite E in Hc. simpl in Hc.
      apply String.eqb_eq in Hc. subst c.
      rewrite normpath_step_dot. apply IH, Hcs.
Qed.

(** [normpath] drops the [.] fields of an absolute path. *)
Lemma normpath_drops_dots (cs : list string) :
  forallb dot_or_name cs = true ->
  normpath (abs_path cs) = abs_path (filter component cs).
Proof.
  intros H. unfold normpath, abs_path.
  change ("/" ++ String.concat "/" cs) with (String "/" (String.concat "/" cs)).
  cbn [String.eqb].
  rewrite startswith_sep_cons.
  destruct cs as [|c cs'] eqn:E.
  - reflexivity.
  - rewrite <- E in *. assert (Hne : cs <> []) by (rewrite E; discriminate).
    destruct (concat_head_fields cs H Hne) as (a & s & Hs & Ha).
    assert (S2 : startswith "//" (String "/" (String.concat "/" cs)) = false).
    { rewrite Hs. unfold startswith. simpl.
      rewrite ascii_eqb_dec, Ascii.eqb_sym, Ha. reflexivity. }
    rewrite S2. cbn [andb].
    change (split (String "/" (String.concat "/" cs)))
      with (EmptyString :: split (String.concat "/" cs)).
    cbn [fold_left].
    change (normpath_step 1 [] "") with (@nil string).
    rewrite (split_concat_fields cs H Hne), (normpath_loop_fields 1 cs [] H).
    simpl. reflexivity.
Qed.

Lemma join_launch_dir_fields (base rest : list string) :
  forallb component base = true -> forallb dot_or_name rest = true ->
  rest <> [] ->
  join (abs_path base) (rel_path rest) = abs_path (base ++ rest).
Proof.
  intros Hb Hr Hne. unfold join, rel_path.
  destruct (concat_head_fields rest Hr Hne) as (a & s & Hs & Ha).
  rewrite Hs at 1. rewrite (startswith_sep_other a s Ha).
  destruct base as [|b base'] eqn:E.
  - reflexivity.
  - rewrite <- E in *. assert (Hbne : base <> []) by (rewrite E; discriminate).
    unfold abs_path at 1 2.
    change (("/" ++ String.concat "/" base =? "")%string) with false.
    rewrite (endswith_sep_names "/" base Hb Hbne). cbn [orb].
    unfold abs_path, sep. rewrite (concat_sep_app base rest Hbne Hne).
    rewrite !append_assoc. reflexivity.
Qed.

Lemma filter_components (cs : list string) :
  forallb component cs = true -> filter component cs = cs.
Proof.
  induction cs as [|c cs IH]; [reflexivity|].
  simpl. intros H. apply andb_true_iff in H. destruct H as [Hc Hcs].
  rewrite Hc, (IH Hcs). reflexivity.
Qed.

Lemma forallb_filter_component (cs : list string) :
  forallb component (filter component cs) = true.
Proof.
  induction cs as [|c cs IH]; [reflexivity|].
  simpl. destruct (component c) eqn:E; [|exact IH].
  simpl. rewrite E, IH. reflexivity.
Qed.

End DottedPaths.

(** X11: a relative [__file__] may carry [.] fields, as in
    [python ./server.py] or [python ./game/./server.py]: they are dropped,
    and [main] changes into the launch directory extended by the names that
    remain before the file name. *)
Theorem dotted_script_path_resolved
    (w : world) (base fields : list string) (name : string) :
  forallb component base = true ->
  forallb dot_or_name fields = true ->
  component name = true ->
  start_dir w = abs_path base ->
  script_file w = rel_path (fields ++ [name]) ->
  script_dir w = abs_path (base ++ filter component fields)
  /\ (chdir_result w = Returns tt ->
      cwd (final w) = abs_path (base ++ filter component fields)).
Proof.
  intros Hb Hf Hn Hs Hfile.
  assert (Hrest : forallb dot_or_name (fields ++ [name]) = true).
  { rewrite forallb_app, Hf. simpl. unfold dot_or_name. rewrite Hn. reflexivity. }
  assert (Hne : (fields ++ [name])%list <> []) by (destruct fields; discriminate).
  assert (E : script_dir w = abs_path (base ++ filter component fields)).
  { unfold script_dir, posixpath.abspath, posixpath.isabs.
    rewrite Hs, Hfile. unfold rel_path at 1.
    destruct (concat_head_fields _ Hrest Hne) as (a & s & Hc & Ha).
    rewrite Hc, (startswith_sep_other a s Ha).
    rewrite (join_launch_dir_fields base (fields ++ [name]) Hb Hrest Hne).
    rewrite normpath_drops_dots
      by (rewrite forallb_app, (component_is_field base Hb), Hrest; reflexivity).
    rewrite !filter_app, (filter_components base Hb). simpl. rewrite Hn.
    rewrite app_assoc. apply dirname_abs_path; [|exact Hn].
    rewrite forallb_app, Hb, forallb_filter_component. reflexivity. }
  split; [exact E|]. intros Hc. rewrite (final_cwd w Hc). exact E.
Qed.

Lemma dotted_script_path_resolved_witness :
  script_dir w_dot_slash = "/home/u/game".
Proof.
  apply (proj1 (dotted_script_path_resolved w_dot_slash
                  ["home"; "u"; "game"] ["."] "server.py"
                  eq_refl eq_refl eq_refl eq_refl eq_refl)).
  Defined.
